(** * vless_config_aggregator: a shallow embedding of app/main.py

    Python [str] values are modelled as Rocq [string]s whose characters are
    the code points 0..255; Python [bytes] are lists of integers in
    [0, 256).  The I/O of the handler (environment, local file, network) is
    an explicit [world] record; exceptions are an explicit [result] type. *)

From Stdlib Require Import String Ascii List ZArith Bool Lia.
Import ListNotations.
Open Scope string_scope.
Open Scope list_scope.
Open Scope Z_scope.

(* ------------------------------------------------------------------ *)
(** ** Python values *)

Definition str := string.
Definition bytes := list Z.

(** [ord c]: the code point of a character. *)
Definition ord (c : ascii) : Z := Z.of_nat (nat_of_ascii c).

(** [str.isspace] on one character (Py_UNICODE_ISSPACE, code points < 256). *)
Definition isspace (c : ascii) : bool :=
  let n := ord c in
  ((9 <=? n) && (n <=? 13)) || ((28 <=? n) && (n <=? 32)) || (n =? 133) || (n =? 160).

Fixpoint lstrip (s : str) : str :=
  match s with
  | EmptyString => EmptyString
  | String c r => if isspace c then lstrip r else s
  end.

Fixpoint rstrip (s : str) : str :=
  match s with
  | EmptyString => EmptyString
  | String c r =>
      let r' := rstrip r in
      match r' with
      | EmptyString => if isspace c then EmptyString else String c EmptyString
      | _ => String c r'
      end
  end.

(** [str.strip()] with no argument. *)
Definition strip (s : str) : str := rstrip (lstrip s).

(** [s.startswith(p)]. *)
Definition startswith (s p : str) : bool := String.prefix p s.

(** Python truthiness of [str | None] and the [or] operator on it. *)
Definition truthy (v : option str) : bool :=
  match v with
  | None => false
  | Some s => negb (String.eqb s EmptyString)
  end.

Definition py_or (a b : option str) : option str := if truthy a then a else b.

(* ------------------------------------------------------------------ *)
(** ** Exceptions and the result monad *)

Inductive exn : Type :=
  | HTTPException (status_code : Z) (detail : str)  (* fastapi.HTTPException *)
  | HTTPStatusError                                  (* httpx.HTTPStatusError *)
  | TransportError                                   (* httpx.TransportError, incl. timeouts *)
  | FileNotFoundError                                (* open('configs.txt') on a missing file *)
  | OSError                                          (* any other failure reading configs.txt *)
  | TypeError (msg : str)                            (* httpx given url=None *)
  | ValueError (msg : str).                          (* binascii.Error and str.encode('ascii') *)

Inductive result (A : Type) : Type :=
  | Ok (a : A)
  | Err (e : exn).
Arguments Ok {A} a.
Arguments Err {A} e.

Definition bind {A B} (m : result A) (k : A -> result B) : result B :=
  match m with
  | Ok a => k a
  | Err e => Err e
  end.

Notation "x <- m ;; k" := (bind m (fun x => k))
  (at level 61, m at next level, right associativity).

(* ------------------------------------------------------------------ *)
(** ** Configuration: [_get_env] and [build_optional_headers] *)

(** The process environment, [os.getenv]. *)
Definition environ := string -> option str.

(** [_get_env name]: [None] when unset, else the stripped value, [None] if empty. *)
Definition _get_env (env : environ) (name : string) : option str :=
  match env name with
  | None => None
  | Some value =>
      let value := strip value in
      py_or (Some value) None
  end.

(** A Python dict with string keys, in insertion order. *)
Definition dict := list (string * option str).

Definition build_optional_headers (env : environ) : list (string * str) :=
  let profile_title := py_or (_get_env env "PROFILE_TITLE") (_get_env env "SUB_NAME") in
  let headers : dict :=
    [ ("profile-title", profile_title);
      ("support-url", _get_env env "SUPPORT_URL");
      ("profile-web-page-url", _get_env env "PROFILE_WEB_PAGE_URL");
      ("announce", _get_env env "ANNOUNCE");
      ("profile-update-interval", _get_env env "PROFILE_UPDATE_INTERVAL");
      ("providerid", _get_env env "PROVIDER_ID") ] in
  (* {key: value for key, value in headers.items() if value} *)
  flat_map (fun kv => match kv with
                      | (key, Some value) =>
                          if truthy (Some value) then [(key, value)] else []
                      | (_, None) => []
                      end) headers.

(* ------------------------------------------------------------------ *)
(** ** Line classification (the comprehensions of [fetch_links]) *)

Definition classify (lines : list str) : list str * list str :=
  let sub_links :=
    map strip (filter (fun line => startswith (strip line) "http") lines) in
  let vless_links :=
    map strip (filter (fun line => startswith (strip line) "vless://") lines) in
  (sub_links, vless_links).

(* ------------------------------------------------------------------ *)
(** ** Text and bytes *)

(** [s.encode()] (UTF-8) for code points below 256. *)
Definition encode_char (c : ascii) : bytes :=
  let n := ord c in
  if n <? 128 then [n]
  else [Z.lor 192 (Z.shiftr n 6); Z.lor 128 (Z.land n 63)].

Definition encode (s : str) : bytes := flat_map encode_char (list_ascii_of_string s).

(** [sep.join(parts)] on bytes. *)
Fixpoint join (sep : bytes) (parts : list bytes) : bytes :=
  match parts with
  | [] => []
  | [x] => x
  | x :: rest => x ++ sep ++ join sep rest
  end.

(** [bytes(...)] of an ASCII text, for writing byte literals. *)
Definition b (s : string) : bytes := map ord (list_ascii_of_string s).

(* ------------------------------------------------------------------ *)
(** ** base64 ([base64.b64encode] / [base64.b64decode], i.e. binascii) *)

(** table_b2a_base64 *)
Definition b2a_char (v : Z) : Z :=
  if v <? 26 then 65 + v
  else if v <? 52 then 97 + (v - 26)
  else if v <? 62 then 48 + (v - 52)
  else if v =? 62 then 43 else 47.

(** table_a2b_base64: 255 marks a byte outside the alphabet. *)
Definition a2b_char (c : Z) : Z :=
  if (65 <=? c) && (c <=? 90) then c - 65
  else if (97 <=? c) && (c <=? 122) then c - 71
  else if (48 <=? c) && (c <=? 57) then c + 4
  else if c =? 43 then 62
  else if c =? 47 then 63
  else 255.

Definition BASE64_PAD : Z := 61.

(** [binascii.b2a_base64(s, newline=False)], by groups of three bytes. *)
Fixpoint b2a_base64 (bs : bytes) : bytes :=
  match bs with
  | x :: y :: z :: rest =>
      [ b2a_char (Z.shiftr x 2);
        b2a_char (Z.lor (Z.shiftl (Z.land x 3) 4) (Z.shiftr y 4));
        b2a_char (Z.lor (Z.shiftl (Z.land y 15) 2) (Z.shiftr z 6));
        b2a_char (Z.land z 63) ] ++ b2a_base64 rest
  | [x; y] =>
      [ b2a_char (Z.shiftr x 2);
        b2a_char (Z.lor (Z.shiftl (Z.land x 3) 4) (Z.shiftr y 4));
        b2a_char (Z.shiftl (Z.land y 15) 2);
        BASE64_PAD ]
  | [x] =>
      [ b2a_char (Z.shiftr x 2); b2a_char (Z.shiftl (Z.land x 3) 4);
        BASE64_PAD; BASE64_PAD ]
  | [] => []
  end.

Definition b64encode (bs : bytes) : bytes := b2a_base64 bs.

(** The loop of [binascii.a2b_base64(s, strict_mode=False)]:
    [quad_pos], [leftchar] and [pads] as in CPython, [out] the bytes
    written so far.  (The count in the first error message is elided.) *)
Fixpoint a2b_loop (s : bytes) (quad_pos leftchar pads : Z) (out : bytes)
  : result bytes :=
  match s with
  | [] =>
      if quad_pos =? 0 then Ok out
      else if quad_pos =? 1 then
        Err (ValueError "Invalid base64-encoded string: number of data characters cannot be 1 more than a multiple of 4")
      else Err (ValueError "Incorrect padding")
  | this_ch :: rest =>
      if this_ch =? BASE64_PAD then
        (* if (quad_pos >= 2 && quad_pos + ++pads >= 4) goto done; *)
        if 2 <=? quad_pos then
          if 4 <=? quad_pos + (pads + 1) then Ok out
          else a2b_loop rest quad_pos leftchar (pads + 1) out
        else a2b_loop rest quad_pos leftchar pads out
      else
        let v := a2b_char this_ch in
        if 64 <=? v then a2b_loop rest quad_pos leftchar pads out
        else
          if quad_pos =? 0 then a2b_loop rest 1 v 0 out
          else if quad_pos =? 1 then
            a2b_loop rest 2 (Z.land v 15)
              0 (out ++ [Z.land (Z.lor (Z.shiftl leftchar 2) (Z.shiftr v 4)) 255])
          else if quad_pos =? 2 then
            a2b_loop rest 3 (Z.land v 3)
              0 (out ++ [Z.land (Z.lor (Z.shiftl leftchar 4) (Z.shiftr v 2)) 255])
          else
            a2b_loop rest 0 0
              0 (out ++ [Z.land (Z.lor (Z.shiftl leftchar 6) v) 255])
  end.

Definition a2b_base64 (s : bytes) : result bytes := a2b_loop s 0 0 0 [].

(** [base64.b64decode(s)] on a [str]: [_bytes_from_decode_data] first
    encodes it as ASCII. *)
Definition b64decode_str (s : str) : result bytes :=
  if forallb (fun c => ord c <? 128) (list_ascii_of_string s)
  then a2b_base64 (map ord (list_ascii_of_string s))
  else Err (ValueError "string argument should contain only ASCII characters").

(** [base64.b64decode(s)] on [bytes]. *)
Definition b64decode (s : bytes) : result bytes := a2b_base64 s.

(* ------------------------------------------------------------------ *)
(** ** Splitting documents into lines *)

Definition is_line_break (c : ascii) : bool :=
  let n := ord c in
  (n =? 10) || (n =? 11) || (n =? 12) || (n =? 13) || (n =? 28) || (n =? 29)
  || (n =? 30) || (n =? 133).

(** [str.splitlines()] (line boundaries below U+0100; "\r\n" is one boundary). *)
Fixpoint splitlines (s : str) : list str :=
  match s with
  | EmptyString => []
  | String c r =>
      if ord c =? 13 then
        match r with
        | String d r' => if ord d =? 10 then "" :: splitlines r' else "" :: splitlines r
        | EmptyString => [""]
        end
      else if is_line_break c then "" :: splitlines r
      else match splitlines r with
           | [] => [String c ""]
           | l :: ls => String c l :: ls
           end
  end.

(** Universal-newline translation of a file opened in text mode. *)
Fixpoint translate_newlines (s : str) : str :=
  match s with
  | EmptyString => EmptyString
  | String c r =>
      if ord c =? 13 then
        match r with
        | String d r' =>
            if ord d =? 10 then String "010"%char (translate_newlines r')
            else String "010"%char (translate_newlines r)
        | EmptyString => String "010"%char EmptyString
        end
      else String c (translate_newlines r)
  end.

(** [file.readlines()]: lines ending after each "\n", which is kept. *)
Fixpoint readlines (s : str) : list str :=
  match s with
  | EmptyString => []
  | String c r =>
      if ord c =? 10 then String c "" :: readlines r
      else match readlines r with
           | [] => [String c ""]
           | l :: ls => String c l :: ls
           end
  end.

(* ------------------------------------------------------------------ *)
(** ** The outside world *)

(** What one [client.get] ends in: a response, or an httpx transport error
    (connection failure, timeout, ...). *)
Inductive http_result : Type :=
  | Resp (status_code : Z) (text : str)
  | Unreachable.

(** What [open('configs.txt', encoding='utf-8').readlines()] meets. *)
Inductive file_state : Type :=
  | FileText (contents : str)   (* the decoded text of the file *)
  | FileMissing                 (* FileNotFoundError *)
  | FileUnreadable.             (* any other OSError or decoding error *)

Record world : Type := {
  env : environ;
  configs_txt : file_state;
  (** the server's answer to a GET of a URL with the given headers *)
  net : str -> list (string * str) -> http_result
}.

Record response : Type := { resp_status : Z; resp_text : str }.

(** [client.get(url, headers=..., timeout=...)]; [url=None] is a TypeError. *)
Definition client_get (w : world) (url : option str) (hdrs : list (string * str))
  : result response :=
  match url with
  | None => Err (TypeError "Invalid type for url. Expected str or httpx.URL, got <class 'NoneType'>")
  | Some u =>
      match net w u hdrs with
      | Resp st t => Ok {| resp_status := st; resp_text := t |}
      | Unreachable => Err TransportError
      end
  end.

(** [response.raise_for_status()]: anything outside 2xx raises. *)
Definition raise_for_status (r : response) : result unit :=
  if (200 <=? resp_status r) && (resp_status r <? 300) then Ok tt
  else Err HTTPStatusError.

(* ------------------------------------------------------------------ *)
(** ** [fetch_links] *)

(** The body of the [try] of [fetch_links] up to [lines]. *)
Definition read_lines (w : world) : result (list str) :=
  if match env w "LOCAL_MODE" with Some m => String.eqb m "on" | None => false end then
    match configs_txt w with
    | FileText contents => Ok (readlines (translate_newlines contents))
    | FileMissing => Err FileNotFoundError
    | FileUnreadable => Err OSError
    end
  else
    let github_token := env w "GITHUB_TOKEN" in
    let headers :=
      match github_token with
      | Some t =>
          if truthy (Some t) then
            [("Authorization", ("token " ++ t)%string);
             ("Accept", "application/vnd.github.v3.raw")]
          else []
      | None => []
      end in
    response <- client_get w (env w "CONFIG_URL") headers ;;
    _ <- raise_for_status response ;;
    Ok (splitlines (resp_text response)).

Definition fetch_links_body (w : world) : result (list str * list str) :=
  lines <- read_lines w ;;
  Ok (classify lines).

(** [fetch_links] with its two [except] clauses. *)
Definition fetch_links (w : world) : result (list str * list str) :=
  match fetch_links_body w with
  | Err HTTPStatusError => Err (HTTPException 404 "Config file not found")
  | Err FileNotFoundError => Err FileNotFoundError   (* logged, re-raised *)
  | r => r
  end.

(* ------------------------------------------------------------------ *)
(** ** [fetch_subscription], [merge_all] *)

Definition fetch_subscription_body (w : world) (sub_link sub_id : str)
  : result (option bytes) :=
  sub <- client_get w (Some (sub_link ++ sub_id)%string) [] ;;
  _ <- raise_for_status sub ;;
  decoded <- b64decode_str (resp_text sub) ;;
  Ok (Some decoded).

(** [except httpx.HTTPError]: status and transport errors are logged and
    the function returns [None]; other exceptions escape. *)
Definition fetch_subscription (w : world) (sub_link sub_id : str)
  : result (option bytes) :=
  match fetch_subscription_body w sub_link sub_id with
  | Err HTTPStatusError => Ok None
  | Err TransportError => Ok None
  | r => r
  end.

(** [await gather(...)]: the results in the order of [aws]; when some
    awaitable raises, [gather] raises.  Among several raising awaitables the
    source propagates the first to finish; all [fetch_subscription]
    exceptions are [ValueError]s, and the model takes the first in list
    order. *)
Fixpoint gather {A} (aws : list (result A)) : result (list A) :=
  match aws with
  | [] => Ok []
  | r :: rest =>
      match r with
      | Err e => Err e
      | Ok a => match gather rest with
                | Ok l => Ok (a :: l)
                | Err e => Err e
                end
      end
  end.

(** [[x for x in tmp if x is not None]] *)
Fixpoint not_none {A} (tmp : list (option A)) : list A :=
  match tmp with
  | [] => []
  | Some x :: rest => x :: not_none rest
  | None :: rest => not_none rest
  end.

Definition is_empty {A} (l : list A) : bool :=
  match l with [] => true | _ => false end.

Definition nothing_to_return : exn := HTTPException 500 "There is nothing to return".

Definition merge_all (w : world) (sub_links vless_links : list str) (sub_id : str)
  : result bytes :=
  tmp <- gather (map (fun sub_url => fetch_subscription w sub_url sub_id) sub_links) ;;
  let data := not_none tmp in
  if is_empty data && is_empty vless_links then Err nothing_to_return
  else
    (* elif not data: a warning is logged *)
    let encoded_vless_links := map encode vless_links in
    let merged_subs := concat data in
    let merged_configs := join [10] encoded_vless_links in
    Ok (merged_subs ++ merged_configs).

(* ------------------------------------------------------------------ *)
(** ** The request handler [main] *)

Record Response : Type := {
  status_code : Z;
  content : bytes;
  media_type : str;
  headers : list (string * str)
}.

(** [main] after [fetch_links] returned. *)
Definition respond (w : world) (sub_links vless_links : list str) (sub_id : str)
  : result Response :=
  if is_empty sub_links && is_empty vless_links then Err nothing_to_return
  else
    result <- merge_all w sub_links vless_links sub_id ;;
    let global_sub := b64encode result in
    let headers := build_optional_headers (env w) in
    Ok {| status_code := 200; content := global_sub;
          media_type := "text/plain"; headers := headers |}.

Definition main (w : world) (sub_id : str) : result Response :=
  links <- fetch_links w ;;
  respond w (fst links) (snd links) sub_id.

(** What the client sees: FastAPI turns an [HTTPException] into an error
    response with its status and detail; any other exception is unhandled. *)
Inductive reply : Type :=
  | Served (r : Response)
  | ErrorResponse (status : Z) (detail : str)
  | Unhandled (e : exn).

Definition serve (w : world) (sub_id : str) : reply :=
  match main w sub_id with
  | Ok r => Served r
  | Err (HTTPException c d) => ErrorResponse c d
  | Err e => Unhandled e
  end.

(* ------------------------------------------------------------------ *)
(** ** Helpers used by the statements *)

(** A configuration value counts as absent when it is unset or blank. *)
Definition blank (env : environ) (name : string) : bool :=
  match env name with
  | None => true
  | Some v => String.eqb (strip v) ""
  end.

(** Which environment variables feed which optional header. *)
Definition header_sources : list (string * list string) :=
  [ ("profile-title", ["PROFILE_TITLE"; "SUB_NAME"]);
    ("support-url", ["SUPPORT_URL"]);
    ("profile-web-page-url", ["PROFILE_WEB_PAGE_URL"]);
    ("announce", ["ANNOUNCE"]);
    ("profile-update-interval", ["PROFILE_UPDATE_INTERVAL"]);
    ("providerid", ["PROVIDER_ID"]) ].

Fixpoint lookup_header (hs : list (string * str)) (k : string) : option str :=
  match hs with
  | [] => None
  | (k', v) :: rest => if String.eqb k k' then Some v else lookup_header rest k
  end.

(** The integers [0, n), for checking a boolean property on every value. *)
Definition zrange (n : Z) : list Z := map Z.of_nat (seq 0 (Z.to_nat n)).

(** Python [bytes] elements lie in [range(256)]. *)
Definition is_byte (v : Z) : Prop := 0 <= v < 256.


(* ------------------------------------------------------------------ *)
(** ** Concrete deployments used by the examples *)

Definition newline : str := String "010"%char "".

Definition config_url : str := "https://config.example/links.txt".

(** The source-list document of the end-to-end scenario. *)
Definition e2e_source : str :=
  ("https://sub.example/" ++ newline ++ "vless://user@host:443?x=1")%string.

(** Remote mode, no token: the source list is served at [config_url], and
    the one subscription endpoint answers [sub] for client "abc". *)
Definition e2e_world (sub : http_result) : world := {|
  env := fun n => if String.eqb n "CONFIG_URL" then Some config_url else None;
  configs_txt := FileMissing;
  net := fun u _ =>
    if String.eqb u config_url then Resp 200 e2e_source
    else if String.eqb u "https://sub.example/abc" then sub
    else Unreachable
|}.

(** Remote mode where the source-list fetch itself ends in [cfg]. *)
Definition remote_world (cfg : http_result) : world := {|
  env := fun n => if String.eqb n "CONFIG_URL" then Some config_url else None;
  configs_txt := FileMissing;
  net := fun u _ => if String.eqb u config_url then cfg else Unreachable
|}.

(** Local mode reading [configs.txt] in state [f]. *)
Definition local_world (f : file_state) : world := {|
  env := fun n => if String.eqb n "LOCAL_MODE" then Some "on" else None;
  configs_txt := f;
  net := fun _ _ => Unreachable
|}.


(* ------------------------------------------------------------------ *)
(** ** Lemmas: stripping *)

Definition no_lead_space (s : str) : bool :=
  match s with
  | EmptyString => true
  | String c _ => negb (isspace c)
  end.

Lemma lstrip_no_lead_space s : no_lead_space (lstrip s) = true.
Proof.
  induction s as [|c r IH]; simpl; auto.
  destruct (isspace c) eqn:E; simpl; auto. rewrite E; reflexivity.
Qed.

Lemma lstrip_fixed s : no_lead_space s = true -> lstrip s = s.
Proof.
  destruct s as [|c r]; simpl; auto.
  intros H. destruct (isspace c); simpl in *; congruence.
Qed.

Lemma rstrip_keeps_head s : no_lead_space s = true -> no_lead_space (rstrip s) = true.
Proof.
  destruct s as [|c r]; simpl; auto.
  intros H. destruct (rstrip r); destruct (isspace c) eqn:E; simpl in *;
    try rewrite E; auto.
Qed.

Lemma rstrip_idem s : rstrip (rstrip s) = rstrip s.
Proof.
  induction s as [|c r IH]; simpl; auto.
  destruct (rstrip r) as [|d r'] eqn:E.
  - destruct (isspace c) eqn:Ec; simpl; auto. rewrite Ec. reflexivity.
  - rewrite <- E in IH |- *. cbn [rstrip]. rewrite IH, E. reflexivity.
Qed.

Lemma strip_idem s : strip (strip s) = strip s.
Proof.
  unfold strip.
  rewrite (lstrip_fixed (rstrip (lstrip s))).
  - apply rstrip_idem.
  - apply rstrip_keeps_head, lstrip_no_lead_space.
Qed.

Lemma http_not_vless s :
  startswith s "http" = true -> startswith s "vless://" = false.
Proof.
  intros H. destruct s as [|c r]; unfold startswith in *;
    cbn [String.prefix] in *; [discriminate|].
  destruct (ascii_dec "h" c) as [<-|]; [reflexivity|discriminate].
Qed.

Lemma classify_app l1 l2 :
  classify (l1 ++ l2) =
  (fst (classify l1) ++ fst (classify l2), snd (classify l1) ++ snd (classify l2)).
Proof. unfold classify; simpl. rewrite !filter_app, !map_app. reflexivity. Qed.

Lemma classify_single l :
  classify [l] =
  ((if startswith (strip l) "http" then [strip l] else []),
   (if startswith (strip l) "vless://" then [strip l] else [])).
Proof.
  unfold classify; simpl.
  destruct (startswith (strip l) "http"), (startswith (strip l) "vless://"); reflexivity.
Qed.

Lemma classify_stripped_http l :
  Forall (fun s => strip s = s /\ startswith s "http" = true) l ->
  classify l = (l, []).
Proof.
  induction l as [|s l IH]; intros H; [reflexivity|].
  inversion H as [|? ? [Hs Hh] Hl]; subst.
  change (s :: l) with ([s] ++ l). rewrite classify_app, IH by assumption.
  rewrite classify_single, Hs, Hh, (http_not_vless _ Hh). reflexivity.
Qed.

Lemma classify_stripped_vless l :
  Forall (fun s => strip s = s /\ startswith s "vless://" = true) l ->
  classify l = ([], l).
Proof.
  induction l as [|s l IH]; intros H; [reflexivity|].
  inversion H as [|? ? [Hs Hv] Hl]; subst.
  change (s :: l) with ([s] ++ l). rewrite classify_app, IH by assumption.
  rewrite classify_single, Hs, Hv.
  destruct (startswith s "http") eqn:Hh.
  - rewrite (http_not_vless _ Hh) in Hv. discriminate.
  - reflexivity.
Qed.

Lemma classify_fst_shape lines :
  Forall (fun s => strip s = s /\ startswith s "http" = true) (fst (classify lines)).
Proof.
  unfold classify; simpl. apply Forall_map, Forall_forall.
  intros x Hx. apply filter_In in Hx as [_ Hx]. cbv beta. split; [apply strip_idem|].
  exact Hx.
Qed.

Lemma classify_snd_shape lines :
  Forall (fun s => strip s = s /\ startswith s "vless://" = true) (snd (classify lines)).
Proof.
  unfold classify; simpl. apply Forall_map, Forall_forall.
  intros x Hx. apply filter_In in Hx as [_ Hx]. cbv beta. split; [apply strip_idem|].
  exact Hx.
Qed.

(* ------------------------------------------------------------------ *)
(** ** Lemmas: optional headers *)

Lemma get_env_blank env n : blank env n = true -> _get_env env n = None.
Proof.
  unfold blank, _get_env, py_or, truthy. destruct (env n) as [v|]; auto.
  intros H. rewrite H. reflexivity.
Qed.

Lemma get_env_nonblank env n v :
  env n = Some v -> strip v <> "" -> _get_env env n = Some (strip v).
Proof.
  unfold _get_env, py_or, truthy. intros -> Hv.
  destruct (String.eqb (strip v) "") eqn:E; auto.
  apply String.eqb_eq in E. contradiction.
Qed.

Lemma build_optional_headers_In env k v :
  In (k, v) (build_optional_headers env) ->
  v <> "" /\
  (   (k = "profile-title" /\ py_or (_get_env env "PROFILE_TITLE") (_get_env env "SUB_NAME") = Some v)
   \/ (k = "support-url" /\ _get_env env "SUPPORT_URL" = Some v)
   \/ (k = "profile-web-page-url" /\ _get_env env "PROFILE_WEB_PAGE_URL" = Some v)
   \/ (k = "announce" /\ _get_env env "ANNOUNCE" = Some v)
   \/ (k = "profile-update-interval" /\ _get_env env "PROFILE_UPDATE_INTERVAL" = Some v)
   \/ (k = "providerid" /\ _get_env env "PROVIDER_ID" = Some v)).
Proof.
  unfold build_optional_headers. intros H.
  apply in_flat_map in H as [[key o] [Hd Hf]].
  destruct o as [value|]; [|destruct Hf].
  destruct (truthy (Some value)) eqn:Ht; [|destruct Hf].
  destruct Hf as [Hf|[]]. injection Hf as <- <-.
  split.
  { unfold truthy in Ht. intros ->. discriminate. }
  simpl in Hd.
  repeat match goal with
         | H : _ \/ _ |- _ => destruct H
         | H : False |- _ => destruct H
         end;
    match goal with H : (_, _) = (_, _) |- _ => injection H as <- Ho end;
    rewrite <- Ho; tauto.
Qed.

(* ------------------------------------------------------------------ *)
(** ** Lemmas: base64 round trip *)

Lemma forallb_zrange (P : Z -> bool) n :
  forallb P (zrange n) = true -> forall z, 0 <= z < n -> P z = true.
Proof.
  intros H z Hz. apply (proj1 (forallb_forall P _) H).
  unfold zrange. apply in_map_iff. exists (Z.to_nat z). split.
  - apply Z2Nat.id. lia.
  - apply in_seq. lia.
Qed.

Lemma forallb_zrange2 (P : Z -> Z -> bool) n m :
  forallb (fun a => forallb (fun b => P a b) (zrange m)) (zrange n) = true ->
  forall a b, 0 <= a < n -> 0 <= b < m -> P a b = true.
Proof.
  intros H a b Ha Hb.
  exact (forallb_zrange _ m (forallb_zrange _ n H a Ha) b Hb).
Qed.

Lemma forallb_zrange3 (P : Z -> Z -> Z -> bool) n m k :
  forallb (fun a => forallb (fun b => forallb (fun c => P a b c) (zrange k)) (zrange m))
    (zrange n) = true ->
  forall a b c, 0 <= a < n -> 0 <= b < m -> 0 <= c < k -> P a b c = true.
Proof.
  intros H a b c Ha Hb Hc.
  exact (forallb_zrange _ k (forallb_zrange2 _ n m H a b Ha Hb) c Hc).
Qed.

Lemma land_3 x : 0 <= Z.land x 3 < 4.
Proof. change 3 with (Z.ones 2). rewrite Z.land_ones by lia. apply Z.mod_pos_bound. lia. Qed.

Lemma land_15 x : 0 <= Z.land x 15 < 16.
Proof. change 15 with (Z.ones 4). rewrite Z.land_ones by lia. apply Z.mod_pos_bound. lia. Qed.

Lemma land_63 x : 0 <= Z.land x 63 < 64.
Proof. change 63 with (Z.ones 6). rewrite Z.land_ones by lia. apply Z.mod_pos_bound. lia. Qed.

Lemma shiftr_byte x k : is_byte x -> 0 <= k ->
  0 <= Z.shiftr x k < 2 ^ (8 - k) \/ 8 < k.
Proof.
  intros Hx Hk. destruct (Z.le_gt_cases k 8); [left|right; lia].
  rewrite Z.shiftr_div_pow2 by lia. unfold is_byte in Hx. split.
  - apply Z.div_pos; [lia | apply Z.pow_pos_nonneg; lia].
  - apply Z.div_lt_upper_bound; [apply Z.pow_pos_nonneg; lia|].
    rewrite <- Z.pow_add_r by lia. replace (k + (8 - k)) with 8 by lia. simpl. lia.
Qed.

Lemma shiftr_2 x : is_byte x -> 0 <= Z.shiftr x 2 < 64.
Proof. intros H. destruct (shiftr_byte x 2 H ltac:(lia)) as [R|R]; [exact R | lia]. Qed.

Lemma shiftr_4 x : is_byte x -> 0 <= Z.shiftr x 4 < 16.
Proof. intros H. destruct (shiftr_byte x 4 H ltac:(lia)) as [R|R]; [exact R | lia]. Qed.

Lemma shiftr_6 x : is_byte x -> 0 <= Z.shiftr x 6 < 4.
Proof. intros H. destruct (shiftr_byte x 6 H ltac:(lia)) as [R|R]; [exact R | lia]. Qed.

(** The two tables are inverse on [0, 64), and no sextet encodes as "=". *)
Lemma b2a_char_ok v : 0 <= v < 64 ->
  a2b_char (b2a_char v) = v /\ (b2a_char v =? BASE64_PAD) = false.
Proof.
  intros Hv.
  pose proof (forallb_zrange
                (fun v => (a2b_char (b2a_char v) =? v) && negb (b2a_char v =? BASE64_PAD))
                64 ltac:(vm_compute; reflexivity) v Hv) as H.
  apply andb_prop in H as [H1 H2]. apply Z.eqb_eq in H1. apply negb_true_iff in H2. auto.
Qed.

(** Sextets of one group, with the bits that come from the next byte kept
    as a variable. *)
Lemma sextet1_range a h : 0 <= a < 4 -> 0 <= h < 16 ->
  0 <= Z.lor (Z.shiftl a 4) h < 64.
Proof.
  intros Ha Hh.
  pose proof (forallb_zrange2 (fun a h => (0 <=? Z.lor (Z.shiftl a 4) h) && (Z.lor (Z.shiftl a 4) h <? 64))
                4 16 ltac:(vm_compute; reflexivity) a h Ha Hh) as H.
  apply andb_prop in H as [H1 H2]. lia.
Qed.

Lemma sextet2_range a h : 0 <= a < 16 -> 0 <= h < 4 ->
  0 <= Z.lor (Z.shiftl a 2) h < 64.
Proof.
  intros Ha Hh.
  pose proof (forallb_zrange2 (fun a h => (0 <=? Z.lor (Z.shiftl a 2) h) && (Z.lor (Z.shiftl a 2) h <? 64))
                16 4 ltac:(vm_compute; reflexivity) a h Ha Hh) as H.
  apply andb_prop in H as [H1 H2]. lia.
Qed.

Lemma decode_byte1 x h : is_byte x -> 0 <= h < 16 ->
  Z.land (Z.lor (Z.shiftl (Z.shiftr x 2) 2)
                (Z.shiftr (Z.lor (Z.shiftl (Z.land x 3) 4) h) 4)) 255 = x.
Proof.
  intros Hx Hh. apply Z.eqb_eq.
  exact (forallb_zrange2
           (fun x h => Z.land (Z.lor (Z.shiftl (Z.shiftr x 2) 2)
                                     (Z.shiftr (Z.lor (Z.shiftl (Z.land x 3) 4) h) 4)) 255 =? x)
           256 16 ltac:(vm_compute; reflexivity) x h Hx Hh).
Qed.

Lemma decode_byte2 a y h : 0 <= a < 4 -> is_byte y -> 0 <= h < 4 ->
  Z.land (Z.lor (Z.shiftl (Z.land (Z.lor (Z.shiftl a 4) (Z.shiftr y 4)) 15) 4)
                (Z.shiftr (Z.lor (Z.shiftl (Z.land y 15) 2) h) 2)) 255 = y.
Proof.
  intros Ha Hy Hh. apply Z.eqb_eq.
  exact (forallb_zrange3
           (fun a y h =>
              Z.land (Z.lor (Z.shiftl (Z.land (Z.lor (Z.shiftl a 4) (Z.shiftr y 4)) 15) 4)
                            (Z.shiftr (Z.lor (Z.shiftl (Z.land y 15) 2) h) 2)) 255 =? y)
           4 256 4 ltac:(vm_compute; reflexivity) a y h Ha Hy Hh).
Qed.

Lemma decode_byte3 a z : 0 <= a < 16 -> is_byte z ->
  Z.land (Z.lor (Z.shiftl (Z.land (Z.lor (Z.shiftl a 2) (Z.shiftr z 6)) 3) 6)
                (Z.land z 63)) 255 = z.
Proof.
  intros Ha Hz. apply Z.eqb_eq.
  exact (forallb_zrange2
           (fun a z =>
              Z.land (Z.lor (Z.shiftl (Z.land (Z.lor (Z.shiftl a 2) (Z.shiftr z 6)) 3) 6)
                            (Z.land z 63)) 255 =? z)
           16 256 ltac:(vm_compute; reflexivity) a z Ha Hz).
Qed.

Lemma a2b_loop_sextet0 v rest l p out : 0 <= v < 64 ->
  a2b_loop (b2a_char v :: rest) 0 l p out = a2b_loop rest 1 v 0 out.
Proof.
  intros Hv. destruct (b2a_char_ok v Hv) as [H1 H2]. simpl. rewrite H2, H1.
  replace (64 <=? v) with false by lia. reflexivity.
Qed.

Lemma a2b_loop_sextet1 v rest l p out : 0 <= v < 64 ->
  a2b_loop (b2a_char v :: rest) 1 l p out =
  a2b_loop rest 2 (Z.land v 15) 0 (out ++ [Z.land (Z.lor (Z.shiftl l 2) (Z.shiftr v 4)) 255]).
Proof.
  intros Hv. destruct (b2a_char_ok v Hv) as [H1 H2]. simpl. rewrite H2, H1.
  replace (64 <=? v) with false by lia. reflexivity.
Qed.

Lemma a2b_loop_sextet2 v rest l p out : 0 <= v < 64 ->
  a2b_loop (b2a_char v :: rest) 2 l p out =
  a2b_loop rest 3 (Z.land v 3) 0 (out ++ [Z.land (Z.lor (Z.shiftl l 4) (Z.shiftr v 2)) 255]).
Proof.
  intros Hv. destruct (b2a_char_ok v Hv) as [H1 H2]. simpl. rewrite H2, H1.
  replace (64 <=? v) with false by lia. reflexivity.
Qed.

Lemma a2b_loop_sextet3 v rest l p out : 0 <= v < 64 ->
  a2b_loop (b2a_char v :: rest) 3 l p out =
  a2b_loop rest 0 0 0 (out ++ [Z.land (Z.lor (Z.shiftl l 6) v) 255]).
Proof.
  intros Hv. destruct (b2a_char_ok v Hv) as [H1 H2]. simpl. rewrite H2, H1.
  replace (64 <=? v) with false by lia. reflexivity.
Qed.

(** Decoding the four characters of a full group gives its three bytes back. *)
Lemma a2b_loop_group x y z rest l p out :
  is_byte x -> is_byte y -> is_byte z ->
  a2b_loop ([ b2a_char (Z.shiftr x 2);
              b2a_char (Z.lor (Z.shiftl (Z.land x 3) 4) (Z.shiftr y 4));
              b2a_char (Z.lor (Z.shiftl (Z.land y 15) 2) (Z.shiftr z 6));
              b2a_char (Z.land z 63) ] ++ rest) 0 l p out
  = a2b_loop rest 0 0 0 (out ++ [x; y; z]).
Proof.
  intros Hx Hy Hz. cbn [app].
  rewrite a2b_loop_sextet0 by (apply shiftr_2; exact Hx).
  rewrite a2b_loop_sextet1 by (apply sextet1_range; [apply land_3 | apply shiftr_4; exact Hy]).
  rewrite a2b_loop_sextet2 by (apply sextet2_range; [apply land_15 | apply shiftr_6; exact Hz]).
  rewrite a2b_loop_sextet3 by apply land_63.
  rewrite decode_byte1 by (auto using shiftr_4).
  rewrite decode_byte2 by (auto using land_3, shiftr_6).
  rewrite decode_byte3 by (auto using land_15).
  rewrite <- !app_assoc. reflexivity.
Qed.

Lemma a2b_loop_b2a n : forall bs out l p,
  (length bs < n)%nat -> Forall is_byte bs ->
  a2b_loop (b2a_base64 bs) 0 l p out = Ok (out ++ bs).
Proof.
  induction n as [|n IH]; intros bs out l p Hlen Hb; [lia|].
  destruct bs as [|x [|y [|z rest]]].
  - rewrite app_nil_r. reflexivity.
  - inversion Hb as [|? ? Hx _]; subst.
    cbn [b2a_base64].
    pose proof (sextet1_range (Z.land x 3) 0 (land_3 x) ltac:(lia)) as R.
    rewrite Z.lor_0_r in R.
    rewrite a2b_loop_sextet0 by (apply shiftr_2; exact Hx).
    rewrite a2b_loop_sextet1 by exact R.
    pose proof (decode_byte1 x 0 Hx ltac:(lia)) as D.
    rewrite Z.lor_0_r in D. rewrite D. reflexivity.
  - inversion Hb as [|? ? Hx Hb']; inversion Hb' as [|? ? Hy _]; subst.
    cbn [b2a_base64].
    pose proof (sextet2_range (Z.land y 15) 0 (land_15 y) ltac:(lia)) as R.
    rewrite Z.lor_0_r in R.
    rewrite a2b_loop_sextet0 by (apply shiftr_2; exact Hx).
    rewrite a2b_loop_sextet1 by (apply sextet1_range; [apply land_3 | apply shiftr_4; exact Hy]).
    rewrite a2b_loop_sextet2 by exact R.
    rewrite decode_byte1 by (auto using shiftr_4).
    pose proof (decode_byte2 (Z.land x 3) y 0 (land_3 x) Hy ltac:(lia)) as D.
    rewrite Z.lor_0_r in D. rewrite D.
    rewrite <- app_assoc. reflexivity.
  - inversion Hb as [|? ? Hx Hb1]; inversion Hb1 as [|? ? Hy Hb2];
      inversion Hb2 as [|? ? Hz Hr]; subst.
    cbn [b2a_base64]. rewrite a2b_loop_group by assumption.
    rewrite IH by (simpl in Hlen; lia || assumption).
    rewrite <- app_assoc. reflexivity.
Qed.

(** [base64.b64decode(base64.b64encode(bs)) == bs]. *)
Lemma b64decode_b64encode bs : Forall is_byte bs -> b64decode (b64encode bs) = Ok bs.
Proof.
  intros Hb. unfold b64decode, b64encode, a2b_base64.
  apply (a2b_loop_b2a (S (length bs))); [lia | exact Hb].
Qed.

Lemma encode_bytes s : Forall is_byte (encode s).
Proof.
  unfold encode. apply Forall_forall. intros v Hv.
  apply in_flat_map in Hv as [c [_ Hc]].
  assert (Hr : 0 <= ord c < 256)
    by (unfold ord; pose proof (nat_ascii_bounded c); lia).
  pose proof (forallb_zrange
                (fun n => forallb (fun v => (0 <=? v) && (v <? 256))
                            (if n <? 128 then [n]
                             else [Z.lor 192 (Z.shiftr n 6); Z.lor 128 (Z.land n 63)]))
                256 ltac:(vm_compute; reflexivity) (ord c) Hr) as H.
  unfold encode_char in Hc. cbv zeta in Hc.
  apply (proj1 (forallb_forall _ _)) with (x := v) in H; [|exact Hc].
  apply andb_prop in H as [H1 H2]. unfold is_byte. lia.
Qed.

Lemma join_bytes sep parts :
  Forall is_byte sep -> Forall (Forall is_byte) parts -> Forall is_byte (join sep parts).
Proof.
  intros Hs Hp. induction Hp as [|x rest Hx Hr IH]; simpl; [constructor|].
  destruct rest as [|y rest']; [exact Hx|].
  apply Forall_app; split; [exact Hx|]. apply Forall_app; split; assumption.
Qed.

(* ------------------------------------------------------------------ *)
(** ** Lemmas: fan-out and merge *)

Lemma gather_app {A} (l1 l2 : list (result A)) :
  gather (l1 ++ l2) = (x <- gather l1 ;; y <- gather l2 ;; Ok (x ++ y)).
Proof.
  induction l1 as [|r l1 IH]; simpl.
  - destruct (gather l2); reflexivity.
  - destruct r as [a|e]; [|reflexivity]. rewrite IH.
    destruct (gather l1); simpl; [|reflexivity].
    destruct (gather l2); reflexivity.
Qed.

Lemma gather_map_ok {A B} (f : A -> result B) l outs :
  gather (map f l) = Ok outs <-> Forall2 (fun u o => f u = Ok o) l outs.
Proof.
  revert outs. induction l as [|u l IH]; intros outs; simpl.
  - split; [intros H; injection H as <-; constructor|].
    intros H; inversion H; reflexivity.
  - destruct (f u) as [o|e] eqn:Hf.
    + destruct (gather (map f l)) as [os|e] eqn:Hg.
      * split.
        -- intros H; injection H as <-. constructor; [exact Hf|]. apply IH. reflexivity.
        -- intros H; inversion H as [|? o' ? os' Ho Hos]; subst.
           rewrite Hf in Ho; injection Ho as <-.
           apply IH in Hos. congruence.
      * split; [discriminate|].
        intros H; inversion H as [|? ? ? os' _ Hos]; subst.
        apply IH in Hos. congruence.
    + split; [discriminate|].
      intros H; inversion H; subst. congruence.
Qed.

Lemma gather_map_err {A B} (f : A -> result B) l e :
  gather (map f l) = Err e -> exists u, In u l /\ f u = Err e.
Proof.
  induction l as [|u l IH]; simpl; [discriminate|].
  destruct (f u) as [o|e'] eqn:Hf.
  - destruct (gather (map f l)) eqn:Hg; [discriminate|].
    intros H; injection H as ->. destruct (IH eq_refl) as [v [Hv Hfv]]. eauto.
  - intros H; injection H as ->. eauto.
Qed.

Lemma not_none_app {A} (l1 l2 : list (option A)) :
  not_none (l1 ++ l2) = not_none l1 ++ not_none l2.
Proof. induction l1 as [|[a|] l1 IH]; simpl; auto. rewrite IH. reflexivity. Qed.

Lemma not_none_nil {A} (l : list (option A)) :
  not_none l = [] <-> Forall (fun o => o = None) l.
Proof.
  induction l as [|[a|] l IH]; simpl.
  - split; auto.
  - split; [discriminate|]. intros H; inversion H; discriminate.
  - rewrite IH. split; [intros H; constructor; auto | intros H; inversion H; auto].
Qed.

Lemma a2b_loop_err s qp l p out e :
  a2b_loop s qp l p out = Err e -> exists m, e = ValueError m.
Proof.
  revert qp l p out. induction s as [|c s IH]; intros qp l p out; simpl.
  - destruct (qp =? 0); [discriminate|].
    destruct (qp =? 1); intros H; injection H as <-; eauto.
  - destruct (c =? BASE64_PAD).
    + destruct (2 <=? qp); [destruct (4 <=? qp + (p + 1)); [discriminate|]|]; apply IH.
    + destruct (64 <=? a2b_char c); [apply IH|].
      destruct (qp =? 0); [apply IH|]. destruct (qp =? 1); [apply IH|].
      destruct (qp =? 2); apply IH.
Qed.

Lemma fetch_subscription_err w u sub_id e :
  fetch_subscription w u sub_id = Err e -> exists m, e = ValueError m.
Proof.
  unfold fetch_subscription, fetch_subscription_body, client_get, raise_for_status.
  destruct (net w _ _) as [st t|]; simpl; [|discriminate].
  destruct ((200 <=? st) && (st <? 300)); simpl; [|discriminate].
  unfold b64decode_str. destruct (forallb _ _); simpl.
  - destruct (a2b_base64 _) as [bs|e'] eqn:Ha; simpl; [discriminate|].
    intros H. apply a2b_loop_err in Ha as [m ->]. injection H as <-. eauto.
  - intros H; injection H as <-; eauto.
Qed.

Lemma fetch_subscription_failed w u sub_id :
  (net w (u ++ sub_id)%string [] = Unreachable \/
   exists st t, net w (u ++ sub_id)%string [] = Resp st t /\ ~ (200 <= st < 300)) ->
  fetch_subscription w u sub_id = Ok None.
Proof.
  unfold fetch_subscription, fetch_subscription_body, client_get, raise_for_status.
  intros [H|[st [t [H Hst]]]]; rewrite H; simpl; [reflexivity|].
  replace ((200 <=? st) && (st <? 300)) with false by lia. reflexivity.
Qed.

Lemma read_lines_err w e :
  read_lines w = Err e ->
  e = FileNotFoundError \/ e = OSError \/ e = TransportError \/ e = HTTPStatusError \/
  exists m, e = TypeError m.
Proof.
  unfold read_lines.
  destruct (match env w "LOCAL_MODE" with Some m => String.eqb m "on" | None => false end).
  - destruct (configs_txt w); intros H; try discriminate; injection H as <-; tauto.
  - unfold client_get, raise_for_status. destruct (env w "CONFIG_URL"); simpl.
    + destruct (net w _ _) as [st t|]; simpl.
      * destruct ((200 <=? st) && (st <? 300)); simpl; [discriminate|].
        intros H; injection H as <-; tauto.
      * intros H; injection H as <-; tauto.
    + intros H; injection H as <-; eauto 10.
Qed.

Lemma fetch_links_http_err w c d :
  fetch_links w = Err (HTTPException c d) -> c = 404 /\ d = "Config file not found".
Proof.
  unfold fetch_links, fetch_links_body.
  destruct (read_lines w) as [lines|e] eqn:Hr; simpl; [discriminate|].
  apply read_lines_err in Hr.
  destruct Hr as [->|[->|[->|[->|[m ->]]]]]; intros H; try discriminate;
    injection H as <- <-; auto.
Qed.

(** [merge_all] once the fetch outcomes are known. *)
Lemma merge_all_ok_form w subs vless sub_id outs :
  Forall2 (fun u o => fetch_subscription w u sub_id = Ok o) subs outs ->
  merge_all w subs vless sub_id =
  if is_empty (not_none outs) && is_empty vless then Err nothing_to_return
  else Ok (concat (not_none outs) ++ join [10] (map encode vless)).
Proof.
  intros H. unfold merge_all.
  rewrite (proj2 (gather_map_ok (fun sub_url => fetch_subscription w sub_url sub_id) subs outs) H).
  reflexivity.
Qed.

Lemma all_failed_outs w subs sub_id :
  Forall (fun u => fetch_subscription w u sub_id = Ok None) subs ->
  Forall2 (fun u o => fetch_subscription w u sub_id = Ok o) subs (map (fun _ => None) subs)
  /\ not_none (map (fun _ : str => @None bytes) subs) = [].
Proof.
  induction 1 as [|u l Hu Hl [IH1 IH2]]; simpl; split; auto.
Qed.

Lemma outs_all_none w subs sub_id outs :
  Forall2 (fun u o => fetch_subscription w u sub_id = Ok o) subs outs ->
  Forall (fun o => o = None) outs ->
  Forall (fun u => fetch_subscription w u sub_id = Ok None) subs.
Proof.
  induction 1 as [|u o l os Ho Hl IH]; intros Hn; constructor.
  - inversion Hn; subst. exact Ho.
  - inversion Hn; subst. apply IH. assumption.
Qed.

(* ================================================================== *)
(** * The claims *)

(** C9: no optional header is ever emitted with an empty value, and a
    header whose configuration value is unset, empty or whitespace only is
    absent from the response headers altogether.  The configuration value of
    [profile-title] is PROFILE_TITLE with its SUB_NAME fallback, so that
    header is absent when both are blank; each of the other five headers has
    one variable (see [header_sources]). *)
Theorem optional_headers_never_empty (env : environ) :
  (forall k v, In (k, v) (build_optional_headers env) -> v <> "") /\
  (forall k names, In (k, names) header_sources ->
     forallb (blank env) names = true ->
     ~ In k (map fst (build_optional_headers env))).
Proof.
  split.
  - intros k v H. apply (build_optional_headers_In env k v H).
  - intros k names Hs Hb Hk.
    apply in_map_iff in Hk as [[k' v] [Hk' Hin]]. simpl in Hk'. subst k'.
    apply build_optional_headers_In in Hin as [_ Hc].
    simpl in Hs.
    destruct Hs as [Hs|[Hs|[Hs|[Hs|[Hs|[Hs|[]]]]]]]; injection Hs as <- <-;
      simpl in Hb; repeat rewrite Bool.andb_true_iff in Hb;
      repeat match goal with
             | H : _ /\ _ |- _ => destruct H
             | H : blank _ _ = true |- _ => rewrite (get_env_blank _ _ H) in Hc; clear H
             end;
      decompose [or and] Hc; simpl in *; discriminate.
Qed.

(** C10: the [profile-title] header is the trimmed PROFILE_TITLE when that
    is non-blank, and otherwise the trimmed SUB_NAME when that is non-blank. *)
Theorem profile_title_falls_back_to_sub_name (env : environ) :
  (forall p, env "PROFILE_TITLE" = Some p -> strip p <> "" ->
     lookup_header (build_optional_headers env) "profile-title" = Some (strip p)) /\
  (forall s, blank env "PROFILE_TITLE" = true -> env "SUB_NAME" = Some s -> strip s <> "" ->
     lookup_header (build_optional_headers env) "profile-title" = Some (strip s)).
Proof.
  split.
  - intros p Hp Hne.
    assert (E : String.eqb (strip p) "" = false) by (apply String.eqb_neq; exact Hne).
    unfold build_optional_headers, py_or at 1.
    rewrite (get_env_nonblank _ _ _ Hp Hne). unfold truthy at 1 2. rewrite E.
    simpl. rewrite E. reflexivity.
  - intros s Hb Hs Hne.
    assert (E : String.eqb (strip s) "" = false) by (apply String.eqb_neq; exact Hne).
    unfold build_optional_headers, py_or at 1.
    rewrite (get_env_blank _ _ Hb), (get_env_nonblank _ _ _ Hs Hne).
    simpl. rewrite E. reflexivity.
Qed.

(** Witness for C10: PROFILE_TITLE unset and SUB_NAME = " My VPN ". *)
Lemma profile_title_falls_back_to_sub_name_witness :
  lookup_header
    (build_optional_headers (fun n => if String.eqb n "SUB_NAME" then Some " My VPN " else None))
    "profile-title" = Some "My VPN".
Proof.
  apply (proj2 (profile_title_falls_back_to_sub_name
                  (fun n => if String.eqb n "SUB_NAME" then Some " My VPN " else None))
               " My VPN "); [reflexivity | reflexivity | discriminate].
Defined.

(** C8: classification is total over lines, keeps input order, sends every
    line to exactly one of {endpoint, inline, dropped}, and is idempotent:
    re-classifying the endpoint list, the inline list, or both together
    gives the same two lists back. *)
Theorem classify_total_idempotent :
  (forall l, classify [l] =
     (if startswith (strip l) "http" then ([strip l], [])
      else if startswith (strip l) "vless://" then ([], [strip l])
      else ([], []))) /\
  (forall l, startswith (strip l) "http" && startswith (strip l) "vless://" = false) /\
  (forall l1 l2, classify (l1 ++ l2) =
     (fst (classify l1) ++ fst (classify l2), snd (classify l1) ++ snd (classify l2))) /\
  (forall lines, let '(subs, vless) := classify lines in
     classify subs = (subs, []) /\ classify vless = ([], vless) /\
     classify (subs ++ vless) = (subs, vless)).
Proof.
  split; [|split; [|split]].
  - intros l. rewrite classify_single.
    destruct (startswith (strip l) "http") eqn:Hh.
    + rewrite (http_not_vless _ Hh). reflexivity.
    + destruct (startswith (strip l) "vless://"); reflexivity.
  - intros l. destruct (startswith (strip l) "http") eqn:Hh; [|reflexivity].
    rewrite (http_not_vless _ Hh). reflexivity.
  - exact classify_app.
  - intros lines.
    pose proof (classify_fst_shape lines) as Hs.
    pose proof (classify_snd_shape lines) as Hv.
    destruct (classify lines) as [subs vless]; simpl in *.
    rewrite classify_app, (classify_stripped_http _ Hs), (classify_stripped_vless _ Hv).
    simpl. rewrite app_nil_r. auto.
Qed.



(** C5: a subscription fetch that ends in a transport error or a non-2xx
    status yields the absent outcome, and the merged payload and the whole
    response are the same as if that endpoint were not in the list. *)
Theorem failed_fetch_isolated (w : world) (s1 : list str) (e : str) (s2 vless : list str)
  (sub_id : str) :
  (net w (e ++ sub_id)%string [] = Unreachable \/
   exists st t, net w (e ++ sub_id)%string [] = Resp st t /\ ~ (200 <= st < 300)) ->
  fetch_subscription w e sub_id = Ok None /\
  merge_all w (s1 ++ e :: s2) vless sub_id = merge_all w (s1 ++ s2) vless sub_id /\
  respond w (s1 ++ e :: s2) vless sub_id = respond w (s1 ++ s2) vless sub_id.
Proof.
  intros Hf. pose proof (fetch_subscription_failed _ _ _ Hf) as He.
  assert (Hm : merge_all w (s1 ++ e :: s2) vless sub_id = merge_all w (s1 ++ s2) vless sub_id).
  { unfold merge_all. rewrite !map_app. cbn [map]. rewrite He, !gather_app. cbn [gather].
    destruct (gather (map (fun sub_url => fetch_subscription w sub_url sub_id) s1)); [|reflexivity].
    destruct (gather (map (fun sub_url => fetch_subscription w sub_url sub_id) s2)); [|reflexivity].
    simpl. rewrite !not_none_app. reflexivity. }
  split; [exact He|]. split; [exact Hm|].
  unfold respond. rewrite Hm.
  replace (is_empty (s1 ++ e :: s2)) with false by (destruct s1; reflexivity).
  destruct (is_empty (s1 ++ s2) && is_empty vless) eqn:E; [|reflexivity].
  destruct s1, s2, vless; try discriminate. reflexivity.
Qed.

Lemma failed_fetch_isolated_witness :
  fetch_subscription (e2e_world Unreachable) "https://sub.example/" "abc" = Ok None /\
  merge_all (e2e_world Unreachable) ([] ++ "https://sub.example/" :: [])
    ["vless://user@host:443?x=1"] "abc" =
  merge_all (e2e_world Unreachable) ([] ++ []) ["vless://user@host:443?x=1"] "abc" /\
  respond (e2e_world Unreachable) ([] ++ "https://sub.example/" :: [])
    ["vless://user@host:443?x=1"] "abc" =
  respond (e2e_world Unreachable) ([] ++ []) ["vless://user@host:443?x=1"] "abc".
Proof.
  apply failed_fetch_isolated. left. reflexivity.
Defined.

(** C6: the request ends in HTTP 500 "There is nothing to return" exactly
    when the classified source list has no endpoint and no inline entry, or
    when there is no inline entry and every subscription fetch returns the
    absent outcome; in every other case that error is not raised.  The
    detail text contains "nothing to return". *)
Theorem nothing_to_return_exactly (w : world) (sub_id : str) :
  (serve w sub_id = ErrorResponse 500 "There is nothing to return" <->
   fetch_links w = Ok ([], []) \/
   exists subs, fetch_links w = Ok (subs, []) /\
     Forall (fun u => fetch_subscription w u sub_id = Ok None) subs) /\
  String.index 0 "nothing to return" "There is nothing to return" = Some 9%nat.
Proof.
  split; [|reflexivity]. split.
  - unfold serve, main.
    destruct (fetch_links w) as [[subs vless]|e] eqn:Hf; simpl.
    + unfold respond. destruct (is_empty subs && is_empty vless) eqn:E.
      * intros _. left. destruct subs, vless; try discriminate. reflexivity.
      * destruct (merge_all w subs vless sub_id) as [p|e] eqn:Hm; simpl; [discriminate|].
        destruct e; try discriminate. intros H; injection H as -> ->.
        unfold merge_all in Hm.
        destruct (gather (map (fun sub_url => fetch_subscription w sub_url sub_id) subs))
          as [tmp|e] eqn:Hg; simpl in Hm.
        -- destruct (is_empty (not_none tmp) && is_empty vless) eqn:E2; [|discriminate].
           apply andb_prop in E2 as [E2 E3].
           destruct vless; [|discriminate]. right. exists subs. split; [reflexivity|].
           apply gather_map_ok in Hg. apply (outs_all_none _ _ _ _ Hg).
           apply not_none_nil. destruct (not_none tmp); [reflexivity|discriminate].
        -- apply gather_map_err in Hg as [u [_ Hu]].
           apply fetch_subscription_err in Hu as [m ->]. discriminate.
    + destruct e; try discriminate. intros H; injection H as -> ->.
      apply fetch_links_http_err in Hf as [Hc _]. discriminate.
  - intros [H|[subs [H Hall]]]; unfold serve, main; rewrite H; simpl; unfold respond.
    + reflexivity.
    + destruct (is_empty subs) eqn:E; [reflexivity|]. simpl.
      destruct (all_failed_outs _ _ _ Hall) as [H2 H3].
      rewrite (merge_all_ok_form _ _ _ _ _ H2), H3. reflexivity.
Qed.

(** C7: when every subscription fetch returns the absent outcome and the
    inline list is non-empty, the request is served with status 200, and
    base64-decoding the body gives exactly the inline entries joined by a
    single "\n" byte. *)
Theorem all_fetches_failed_inline_served (w : world) (sub_id : str) (subs vless : list str) :
  fetch_links w = Ok (subs, vless) ->
  vless <> [] ->
  Forall (fun u => fetch_subscription w u sub_id = Ok None) subs ->
  exists r, serve w sub_id = Served r /\ status_code r = 200 /\
    content r = b64encode (join [10] (map encode vless)) /\
    b64decode (content r) = Ok (join [10] (map encode vless)).
Proof.
  intros Hf Hv Hall. unfold serve, main. rewrite Hf. simpl. unfold respond.
  assert (Hvf : is_empty vless = false) by (destruct vless; [contradiction|reflexivity]).
  destruct (all_failed_outs _ _ _ Hall) as [H2 H3].
  rewrite (merge_all_ok_form _ _ _ _ _ H2), H3, Hvf.
  destruct (is_empty subs); simpl.
  all: eexists; split; [reflexivity|]. all: simpl. all: split; [reflexivity|].
  all: split; [reflexivity|].
  all: apply b64decode_b64encode, join_bytes; [repeat constructor; lia|].
  all: apply Forall_map, Forall_forall; intros s _; apply encode_bytes.
Qed.

Lemma all_fetches_failed_inline_served_witness :
  exists r, serve (e2e_world (Resp 404 "Not Found")) "abc" = Served r /\
    status_code r = 200 /\
    content r = b64encode (join [10] (map encode ["vless://user@host:443?x=1"])) /\
    b64decode (content r) = Ok (join [10] (map encode ["vless://user@host:443?x=1"])).
Proof.
  apply (all_fetches_failed_inline_served _ _ ["https://sub.example/"]).
  - vm_compute. reflexivity.
  - discriminate.
  - constructor; [vm_compute; reflexivity | constructor].
Defined.

(** C2 (as stated, refuted): in the end-to-end scenario the merged bytes
    are "A" followed directly by the inline entry, not "A\n" followed by it;
    neither the merged bytes nor the response body are the ones the claim
    gives. *)
Lemma e2e_scenario_counterexample :
  merge_all (e2e_world (Resp 200 "QQ==")) ["https://sub.example/"]
    ["vless://user@host:443?x=1"] "abc" = Ok (b "Avless://user@host:443?x=1") /\
  serve (e2e_world (Resp 200 "QQ==")) "abc" =
    Served {| status_code := 200; content := b64encode (b "Avless://user@host:443?x=1");
              media_type := "text/plain"; headers := [] |} /\
  (if list_eq_dec Z.eq_dec (b "Avless://user@host:443?x=1")
        (b "A" ++ [10] ++ b "vless://user@host:443?x=1") then true else false) = false /\
  (if list_eq_dec Z.eq_dec (b64encode (b "Avless://user@host:443?x=1"))
        (b64encode (b "A" ++ [10] ++ b "vless://user@host:443?x=1")) then true else false) = false.
Proof. vm_compute. repeat split. Qed.

(** C2 (amended): with the source list ["https://sub.example/",
    "vless://user@host:443?x=1"] and the endpoint answering "QQ==" (the
    base64 of "A") for client "abc", the merged bytes are
    "A" + "vless://user@host:443?x=1" with no byte between the blocks, and
    the response body is the base64 of exactly those bytes. *)
Theorem e2e_scenario_concatenates (w : world) :
  read_lines w = Ok ["https://sub.example/"; "vless://user@host:443?x=1"] ->
  net w "https://sub.example/abc" [] = Resp 200 "QQ==" ->
  merge_all w ["https://sub.example/"] ["vless://user@host:443?x=1"] "abc" =
    Ok (b "Avless://user@host:443?x=1") /\
  serve w "abc" =
    Served {| status_code := 200; content := b64encode (b "Avless://user@host:443?x=1");
              media_type := "text/plain"; headers := build_optional_headers (env w) |}.
Proof.
  intros Hl Hn.
  assert (Hm : merge_all w ["https://sub.example/"] ["vless://user@host:443?x=1"] "abc" =
               Ok (b "Avless://user@host:443?x=1")).
  { unfold merge_all, fetch_subscription, fetch_subscription_body, client_get.
    cbn [map]. change ("https://sub.example/" ++ "abc")%string with "https://sub.example/abc".
    rewrite Hn. reflexivity. }
  split; [exact Hm|].
  unfold serve, main, fetch_links, fetch_links_body. rewrite Hl. cbn [bind fst snd].
  change (classify ["https://sub.example/"; "vless://user@host:443?x=1"])
    with (["https://sub.example/"], ["vless://user@host:443?x=1"]).
  unfold respond. cbn [fst snd is_empty andb]. rewrite Hm. reflexivity.
Qed.

Lemma e2e_scenario_concatenates_witness :
  merge_all (e2e_world (Resp 200 "QQ==")) ["https://sub.example/"]
    ["vless://user@host:443?x=1"] "abc" = Ok (b "Avless://user@host:443?x=1") /\
  serve (e2e_world (Resp 200 "QQ==")) "abc" =
    Served {| status_code := 200; content := b64encode (b "Avless://user@host:443?x=1");
              media_type := "text/plain";
              headers := build_optional_headers (env (e2e_world (Resp 200 "QQ=="))) |}.
Proof.
  apply e2e_scenario_concatenates; vm_compute; reflexivity.
Defined.

(** C3 (fails on the code): a 2xx answer whose body is not valid base64
    ("A") makes [base64.b64decode] raise a ValueError, which the
    [except httpx.HTTPError] clause of [fetch_subscription] does not catch;
    it escapes [gather] and [merge_all], and the request ends in an
    unhandled exception instead of the endpoint counting as absent (the
    inline entry of the source list is not served either). *)
Lemma undecodable_subscription_crashes_request :
  fetch_subscription (e2e_world (Resp 200 "A")) "https://sub.example/" "abc" =
    Err (ValueError "Invalid base64-encoded string: number of data characters cannot be 1 more than a multiple of 4") /\
  serve (e2e_world (Resp 200 "A")) "abc" =
    Unhandled (ValueError "Invalid base64-encoded string: number of data characters cannot be 1 more than a multiple of 4") /\
  serve (e2e_world (Resp 404 "Not Found")) "abc" <> serve (e2e_world (Resp 200 "A")) "abc".
Proof. vm_compute. split; [reflexivity|]. split; [reflexivity|]. discriminate. Qed.

(** C4 (fails on the code): in remote mode a non-2xx answer for the source
    list becomes HTTP 404 "Config file not found", but a transport error
    (connection failure, timeout) is an [httpx.TransportError], which the
    [except httpx.HTTPStatusError] clause does not catch: the request ends
    in an unhandled exception.  In local mode a missing configs.txt is
    re-raised unhandled, as the claim says. *)
Lemma source_list_transport_error_unhandled :
  serve (remote_world (Resp 404 "Not Found")) "" = ErrorResponse 404 "Config file not found" /\
  serve (remote_world (Resp 503 "")) "" = ErrorResponse 404 "Config file not found" /\
  serve (remote_world Unreachable) "" = Unhandled TransportError /\
  serve (local_world FileMissing) "" = Unhandled FileNotFoundError /\
  serve (local_world FileUnreadable) "" = Unhandled OSError.
Proof. vm_compute. repeat split. Qed.

(* ================================================================== *)
(** * Further properties of the code *)

(* ------------------------------------------------------------------ *)
(** ** base64 *)

Lemma b2a_base64_length n : forall bs, (length bs < n)%nat ->
  length (b2a_base64 bs) = (4 * ((length bs + 2) / 3))%nat.
Proof.
  induction n as [|n IH]; intros bs Hlen; [lia|].
  destruct bs as [|x [|y [|z rest]]]; try reflexivity.
  cbn [b2a_base64 length app]. rewrite IH by (simpl in Hlen; lia).
  replace (S (S (S (length rest))) + 2)%nat with (1 * 3 + (length rest + 2))%nat by lia.
  rewrite Nat.div_add_l by lia. lia.
Qed.

(** X1: [b64decode(b64encode(bs)) == bs] for every byte string. *)
Theorem b64_round_trip (bs : bytes) :
  Forall is_byte bs -> b64decode (b64encode bs) = Ok bs.
Proof. apply b64decode_b64encode. Qed.

Lemma b64_round_trip_witness :
  b64decode (b64encode [0; 255; 10; 65]) = Ok [0; 255; 10; 65].
Proof. apply b64_round_trip. repeat constructor; unfold is_byte; lia. Defined.

(** X2: [b64encode] turns n bytes into 4 * ceil(n / 3) characters. *)
Theorem b64encode_length (bs : bytes) :
  length (b64encode bs) = (4 * ((length bs + 2) / 3))%nat.
Proof. apply (b2a_base64_length (S (length bs))). lia. Qed.

Lemma a2b_loop_skip l1 c l2 : c <> BASE64_PAD -> 64 <= a2b_char c ->
  forall q l p out, a2b_loop (l1 ++ c :: l2) q l p out = a2b_loop (l1 ++ l2) q l p out.
Proof.
  intros Hc Hv. induction l1 as [|x l1 IH]; intros q l p out; simpl.
  - replace (c =? BASE64_PAD) with false by lia.
    replace (64 <=? a2b_char c) with true by lia. reflexivity.
  - repeat match goal with |- context [if ?b then _ else _] => destruct b end;
      try apply IH; reflexivity.
Qed.

(** X3: decoding ignores a byte outside the base64 alphabet (and not "="),
    wherever it stands, e.g. the line breaks of wrapped base64. *)
Theorem b64decode_skips_non_alphabet (l1 : bytes) (c : Z) (l2 : bytes) :
  c <> BASE64_PAD -> 64 <= a2b_char c ->
  b64decode (l1 ++ c :: l2) = b64decode (l1 ++ l2).
Proof. intros Hc Hv. apply a2b_loop_skip; assumption. Qed.

Lemma b64decode_skips_non_alphabet_witness :
  b64decode (b "QQ" ++ 10 :: b "==") = b64decode (b "QQ" ++ b "==").
Proof. apply b64decode_skips_non_alphabet; vm_compute; discriminate. Defined.

(* ------------------------------------------------------------------ *)
(** ** Subscriptions and the response body *)

Lemma b2a_char_lt v : b2a_char v < 128.
Proof.
  unfold b2a_char.
  destruct (Z.ltb_spec v 26); [lia|].
  destruct (Z.ltb_spec v 52); [lia|].
  destruct (Z.ltb_spec v 62); [lia|].
  destruct (Z.eqb_spec v 62); lia.
Qed.

Lemma b2a_base64_ascii n : forall bs, (length bs < n)%nat ->
  Forall (fun v => v < 128) (b2a_base64 bs).
Proof.
  induction n as [|n IH]; intros bs Hlen; [lia|].
  destruct bs as [|x [|y [|z rest]]]; cbn [b2a_base64].
  - constructor.
  - repeat apply Forall_cons; try apply Forall_nil; try apply b2a_char_lt;
      unfold BASE64_PAD; lia.
  - repeat apply Forall_cons; try apply Forall_nil; try apply b2a_char_lt;
      unfold BASE64_PAD; lia.
  - apply Forall_app; split.
    + repeat apply Forall_cons; try apply Forall_nil; apply b2a_char_lt.
    + apply IH. simpl in Hlen. lia.
Qed.

Lemma land_255 x : 0 <= Z.land x 255 < 256.
Proof. change 255 with (Z.ones 8). rewrite Z.land_ones by lia. apply Z.mod_pos_bound. lia. Qed.

Lemma a2b_loop_bytes s : forall qp l p out r,
  Forall is_byte out -> a2b_loop s qp l p out = Ok r -> Forall is_byte r.
Proof.
  induction s as [|c s IH]; intros qp l p out r Hout; simpl.
  - destruct (qp =? 0); [intros H; injection H as <-; exact Hout|].
    destruct (qp =? 1); discriminate.
  - assert (Hl : forall x, Forall is_byte (out ++ [Z.land x 255])).
    { intros x. apply Forall_app; split; [exact Hout|].
      constructor; [apply land_255|constructor]. }
    destruct (c =? BASE64_PAD).
    + destruct (2 <=? qp);
        [destruct (4 <=? qp + (p + 1)); [intros H; injection H as <-; exact Hout|]|];
        apply IH; exact Hout.
    + destruct (64 <=? a2b_char c); [apply IH; exact Hout|].
      destruct (qp =? 0); [apply IH; exact Hout|].
      destruct (qp =? 1); [apply IH; apply Hl|].
      destruct (qp =? 2); apply IH; apply Hl.
Qed.

Lemma fetch_subscription_bytes w u sub_id bs :
  fetch_subscription w u sub_id = Ok (Some bs) -> Forall is_byte bs.
Proof.
  unfold fetch_subscription, fetch_subscription_body, client_get, raise_for_status.
  destruct (net w _ _) as [st t|]; simpl; [|discriminate].
  destruct ((200 <=? st) && (st <? 300)); simpl; [|discriminate].
  unfold b64decode_str. destruct (forallb _ _); simpl; [|discriminate].
  destruct (a2b_base64 _) as [r|e] eqn:Ha; simpl.
  - intros H; injection H as <-. eapply a2b_loop_bytes; [constructor|exact Ha].
  - apply a2b_loop_err in Ha as [m ->]. discriminate.
Qed.

Lemma concat_bytes (parts : list bytes) :
  Forall (Forall is_byte) parts -> Forall is_byte (concat parts).
Proof.
  induction 1 as [|x rest Hx _ IH]; simpl; [constructor|].
  apply Forall_app; split; assumption.
Qed.

Lemma not_none_bytes w subs sub_id outs :
  Forall2 (fun u o => fetch_subscription w u sub_id = Ok o) subs outs ->
  Forall (Forall is_byte) (not_none outs).
Proof.
  induction 1 as [|u [bs|] l os Ho _ IH]; simpl; auto.
  constructor; [|exact IH]. eapply fetch_subscription_bytes; exact Ho.
Qed.

Lemma merge_all_bytes w subs vless sub_id p :
  merge_all w subs vless sub_id = Ok p -> Forall is_byte p.
Proof.
  unfold merge_all.
  destruct (gather _) as [outs|e] eqn:Hg; cbn [bind]; [|discriminate].
  apply gather_map_ok in Hg.
  destruct (is_empty (not_none outs) && is_empty vless); [discriminate|].
  intros H; injection H as <-. apply Forall_app; split.
  - apply concat_bytes. eapply not_none_bytes; exact Hg.
  - apply join_bytes.
    + constructor; [unfold is_byte; lia|constructor].
    + apply Forall_forall. intros x Hx. apply in_map_iff in Hx as [s [<- _]].
      apply encode_bytes.
Qed.

(** X4: when a subscription endpoint answers 2xx with the base64 text of a
    byte string, [fetch_subscription] returns exactly that byte string. *)
Theorem fetch_subscription_decodes (w : world) (sub_link sub_id t : str) (st : Z)
  (bs : bytes) :
  Forall is_byte bs -> 200 <= st < 300 ->
  net w (sub_link ++ sub_id)%string [] = Resp st t ->
  map ord (list_ascii_of_string t) = b64encode bs ->
  fetch_subscription w sub_link sub_id = Ok (Some bs).
Proof.
  intros Hb Hst Hnet Ht.
  unfold fetch_subscription, fetch_subscription_body, client_get, raise_for_status.
  rewrite Hnet. cbn [bind resp_status resp_text].
  replace ((200 <=? st) && (st <? 300)) with true by lia. cbn [bind].
  unfold b64decode_str.
  replace (forallb (fun c => ord c <? 128) (list_ascii_of_string t)) with true.
  - rewrite Ht. change (a2b_base64 (b64encode bs)) with (b64decode (b64encode bs)).
    rewrite b64decode_b64encode by exact Hb. reflexivity.
  - symmetry. apply forallb_forall. intros c Hc. apply Z.ltb_lt.
    pose proof (b2a_base64_ascii (S (length bs)) bs ltac:(lia)) as Ha.
    fold (b64encode bs) in Ha. rewrite <- Ht in Ha.
    apply Forall_forall with (x := ord c) in Ha; [exact Ha|]. apply in_map. exact Hc.
Qed.

Lemma fetch_subscription_decodes_witness :
  fetch_subscription (e2e_world (Resp 200 "QQ==")) "https://sub.example/" "abc"
  = Ok (Some [65]).
Proof.
  apply (fetch_subscription_decodes _ _ _ "QQ==" 200);
    [repeat constructor; unfold is_byte; lia | lia | reflexivity | reflexivity].
Defined.

(** X5: a served request answers status 200 with media type text/plain and
    the optional headers; its body is [b64encode] of the bytes [merge_all]
    returned for the links of [fetch_links], and decoding the body gives
    those bytes back. *)
Theorem served_body_decodes_to_merge (w : world) (sub_id : str) (r : Response) :
  serve w sub_id = Served r ->
  status_code r = 200 /\ media_type r = "text/plain" /\
  headers r = build_optional_headers (env w) /\
  exists subs vless p,
    fetch_links w = Ok (subs, vless) /\ merge_all w subs vless sub_id = Ok p /\
    content r = b64encode p /\ b64decode (content r) = Ok p.
Proof.
  unfold serve, main.
  destruct (fetch_links w) as [[subs vless]|e] eqn:Hf; cbn [bind fst snd];
    [|destruct e; discriminate].
  unfold respond.
  destruct (is_empty subs && is_empty vless); [cbv [nothing_to_return]; discriminate|].
  destruct (merge_all w subs vless sub_id) as [p|e] eqn:Hm; cbn [bind];
    [|destruct e; discriminate].
  intros H; injection H as <-. cbn [status_code media_type headers content].
  split; [reflexivity|]. split; [reflexivity|]. split; [reflexivity|].
  exists subs, vless, p. split; [reflexivity|]. split; [exact Hm|].
  split; [reflexivity|].
  apply b64decode_b64encode. eapply merge_all_bytes; exact Hm.
Qed.

Lemma served_body_decodes_to_merge_witness :
  exists r, serve (e2e_world (Resp 200 "QQ==")) "abc" = Served r /\
  (status_code r = 200 /\ media_type r = "text/plain" /\
   headers r = build_optional_headers (env (e2e_world (Resp 200 "QQ=="))) /\
   exists subs vless p,
     fetch_links (e2e_world (Resp 200 "QQ==")) = Ok (subs, vless) /\
     merge_all (e2e_world (Resp 200 "QQ==")) subs vless "abc" = Ok p /\
     content r = b64encode p /\ b64decode (content r) = Ok p).
Proof.
  exists {| status_code := 200;
            content := b64encode (65 :: b "vless://user@host:443?x=1");
            media_type := "text/plain"; headers := [] |}.
  split; [vm_compute; reflexivity|].
  apply served_body_decodes_to_merge. vm_compute. reflexivity.
Defined.

(* ------------------------------------------------------------------ *)
(** ** Reading the source list: local file and remote document *)













(* ------------------------------------------------------------------ *)
(** ** How a failing source list ends the request *)

Lemma remote_mode w :
  env w "LOCAL_MODE" <> Some "on" ->
  match env w "LOCAL_MODE" with Some m => String.eqb m "on" | None => false end = false.
Proof.
  destruct (env w "LOCAL_MODE") as [m|]; [|reflexivity].
  destruct (String.eqb_spec m "on") as [->|]; [contradiction|reflexivity].
Qed.

(** X7: in remote mode, a source-list answer outside 2xx (whatever token
    headers were sent) makes the request fail with the 404 error response
    "Config file not found". *)
Theorem remote_status_error_is_404 (w : world) (u t : str) (st : Z) (sub_id : str) :
  env w "LOCAL_MODE" <> Some "on" -> env w "CONFIG_URL" = Some u ->
  (forall hdrs, net w u hdrs = Resp st t) -> ~ (200 <= st < 300) ->
  serve w sub_id = ErrorResponse 404 "Config file not found".
Proof.
  intros Hl Hu Hn Hst.
  unfold serve, main, fetch_links, fetch_links_body, read_lines, client_get, raise_for_status.
  rewrite (remote_mode w Hl). cbv zeta. rewrite Hu, Hn. cbn [bind resp_status].
  replace ((200 <=? st) && (st <? 300)) with false by lia. reflexivity.
Qed.

Lemma remote_status_error_is_404_witness :
  serve (remote_world (Resp 403 "Forbidden")) "abc"
  = ErrorResponse 404 "Config file not found".
Proof.
  apply (remote_status_error_is_404 _ config_url "Forbidden" 403);
    [vm_compute; discriminate | vm_compute; reflexivity
    | intros hdrs; vm_compute; reflexivity | lia].
Defined.

(** X8: in remote mode with CONFIG_URL unset, httpx is given [url=None] and
    the request fails with an unhandled TypeError, whatever else is
    configured. *)
Theorem config_url_unset_type_error (w : world) (sub_id : str) :
  env w "LOCAL_MODE" <> Some "on" -> env w "CONFIG_URL" = None ->
  exists m, serve w sub_id = Unhandled (TypeError m).
Proof.
  intros Hl Hu.
  unfold serve, main, fetch_links, fetch_links_body, read_lines, client_get.
  rewrite (remote_mode w Hl). cbv zeta. rewrite Hu. cbn [bind]. eexists. reflexivity.
Qed.

Lemma config_url_unset_type_error_witness :
  exists m, serve {| env := fun n => if String.eqb n "GITHUB_TOKEN" then Some "t" else None;
                     configs_txt := FileText "vless://x";
                     net := fun _ _ => Resp 200 "vless://x" |} "" = Unhandled (TypeError m).
Proof.
  apply config_url_unset_type_error; [vm_compute; discriminate | vm_compute; reflexivity].
Defined.

(** X9: in local mode, a missing configs.txt makes the request fail with
    the FileNotFoundError unhandled (it is logged and re-raised, not turned
    into an error response), and any other read failure escapes as well. *)
Theorem local_missing_file_unhandled (w : world) (sub_id : str) :
  env w "LOCAL_MODE" = Some "on" ->
  (configs_txt w = FileMissing -> serve w sub_id = Unhandled FileNotFoundError) /\
  (configs_txt w = FileUnreadable -> serve w sub_id = Unhandled OSError).
Proof.
  intros Hl.
  unfold serve, main, fetch_links, fetch_links_body, read_lines.
  rewrite Hl. replace (String.eqb "on" "on") with true by reflexivity.
  split; intros Hf; rewrite Hf; reflexivity.
Qed.

Lemma local_missing_file_unhandled_witness :
  (configs_txt (local_world FileMissing) = FileMissing ->
   serve (local_world FileMissing) "abc" = Unhandled FileNotFoundError) /\
  (configs_txt (local_world FileMissing) = FileUnreadable ->
   serve (local_world FileMissing) "abc" = Unhandled OSError).
Proof.
  apply (local_missing_file_unhandled (local_world FileMissing) "abc").
  vm_compute. reflexivity.
Defined.

(* ------------------------------------------------------------------ *)
(** ** Configuration values and optional headers *)

Lemma get_env_some env n v :
  _get_env env n = Some v ->
  exists raw, env n = Some raw /\ v = strip raw /\ v <> "" /\ strip v = v.
Proof.
  unfold _get_env, py_or, truthy. destruct (env n) as [raw|]; [|discriminate].
  cbv zeta. destruct (String.eqb_spec (strip raw) "") as [E|E]; cbn [negb];
    [discriminate|].
  intros H; injection H as <-. exists raw. repeat split; auto. apply strip_idem.
Qed.

(** X10: [_get_env] returns None exactly when the variable is unset or
    blank; otherwise it returns the variable's value with surrounding
    whitespace removed, which is non-empty and has nothing left to strip. *)
Theorem get_env_trimmed (env : environ) (name : string) :
  (_get_env env name = None <-> blank env name = true) /\
  (forall v, _get_env env name = Some v ->
     exists raw, env name = Some raw /\ v = strip raw /\ v <> "" /\ strip v = v).
Proof.
  split; [|apply get_env_some].
  unfold _get_env, blank, py_or, truthy. destruct (env name) as [raw|];
    [|split; reflexivity].
  cbv zeta. destruct (String.eqb_spec (strip raw) "") as [E|E]; cbn [negb].
  - split; reflexivity.
  - split; discriminate.
Qed.

Lemma py_or_some a b v : py_or a b = Some v -> a = Some v \/ b = Some v.
Proof. unfold py_or. destruct (truthy a); auto. Qed.

Lemma flat_map_keys_nodup (f : string * option str -> list (string * str)) (d : dict) :
  (forall kv, (length (f kv) <= 1)%nat) ->
  (forall kv p, In p (f kv) -> fst p = fst kv) ->
  NoDup (map fst d) -> NoDup (map fst (flat_map f d)).
Proof.
  intros Hlen Hkey.
  assert (Hsub : forall k d', In k (map fst (flat_map f d')) -> In k (map fst d')).
  { intros k d' Hk. apply in_map_iff in Hk as [p [<- Hp]].
    apply in_flat_map in Hp as [kv [Hkv Hp]].
    rewrite (Hkey _ _ Hp). apply in_map. exact Hkv. }
  induction d as [|kv d IH]; intros Hd; [constructor|].
  inversion Hd as [|? ? Hnot Hd']; subst.
  cbn [flat_map]. rewrite map_app.
  specialize (Hlen kv). specialize (Hkey kv).
  destruct (f kv) as [|p [|q l]]; cbn [length] in Hlen; [exact (IH Hd')| |lia].
  cbn [map app]. constructor; [|exact (IH Hd')].
  rewrite (Hkey p (or_introl eq_refl)). intros Hin. apply Hnot, (Hsub _ d), Hin.
Qed.

(** X11: every optional header value has no surrounding whitespace, and
    each header name occurs at most once. *)
Theorem optional_headers_trimmed_unique (env : environ) :
  (forall k v, In (k, v) (build_optional_headers env) -> strip v = v) /\
  NoDup (map fst (build_optional_headers env)).
Proof.
  split.
  - intros k v H. apply build_optional_headers_In in H as [_ H].
    assert (Hg : exists n, _get_env env n = Some v).
    { destruct H as [[_ H]|[[_ H]|[[_ H]|[[_ H]|[[_ H]|[_ H]]]]]]; eauto.
      apply py_or_some in H as [H|H]; eauto. }
    destruct Hg as [n Hg]. apply get_env_some in Hg as [? [_ [_ [_ Hs]]]]. exact Hs.
  - unfold build_optional_headers. cbv zeta. apply flat_map_keys_nodup.
    + intros [k [v|]]; cbn [length]; [destruct (truthy (Some v)); cbn [length]|]; lia.
    + intros [k [v|]] p; [destruct (truthy (Some v))|]; cbn [In];
        [intros [<-|[]]; reflexivity | intros [] | intros []].
    + cbn [map fst].
      repeat constructor; cbn [In]; intros H;
        repeat destruct H as [H|H]; try discriminate; contradiction.
Qed.

(* ------------------------------------------------------------------ *)
(** ** Unpadded base64 *)

Lemma filter_nopad_b2a v rest : 0 <= v < 64 ->
  filter (fun c => negb (c =? BASE64_PAD)) (b2a_char v :: rest)
  = b2a_char v :: filter (fun c => negb (c =? BASE64_PAD)) rest.
Proof. intros Hv. cbn [filter]. rewrite (proj2 (b2a_char_ok v Hv)). reflexivity. Qed.

Lemma filter_nopad_pad rest :
  filter (fun c => negb (c =? BASE64_PAD)) (BASE64_PAD :: rest)
  = filter (fun c => negb (c =? BASE64_PAD)) rest.
Proof. reflexivity. Qed.

Lemma a2b_loop_b2a_unpadded n : forall bs out l p,
  (length bs < n)%nat -> Forall is_byte bs -> (length bs mod 3 <> 0)%nat ->
  a2b_loop (filter (fun c => negb (c =? BASE64_PAD)) (b2a_base64 bs)) 0 l p out
  = Err (ValueError "Incorrect padding").
Proof.
  induction n as [|n IH]; intros bs out l p Hlen Hb Hm; [lia|].
  destruct bs as [|x [|y [|z rest]]].
  - cbn in Hm. lia.
  - inversion Hb as [|? ? Hx _]; subst.
    cbn [b2a_base64].
    pose proof (sextet1_range (Z.land x 3) 0 (land_3 x) ltac:(lia)) as R.
    rewrite Z.lor_0_r in R.
    rewrite filter_nopad_b2a by (apply shiftr_2; exact Hx).
    rewrite filter_nopad_b2a by exact R.
    rewrite !filter_nopad_pad. cbn [filter].
    rewrite a2b_loop_sextet0 by (apply shiftr_2; exact Hx).
    rewrite a2b_loop_sextet1 by exact R.
    reflexivity.
  - inversion Hb as [|? ? Hx Hb']; inversion Hb' as [|? ? Hy _]; subst.
    cbn [b2a_base64].
    pose proof (sextet1_range (Z.land x 3) (Z.shiftr y 4) (land_3 x)
                  (shiftr_4 y Hy)) as R1.
    pose proof (sextet2_range (Z.land y 15) 0 (land_15 y) ltac:(lia)) as R2.
    rewrite Z.lor_0_r in R2.
    rewrite filter_nopad_b2a by (apply shiftr_2; exact Hx).
    rewrite filter_nopad_b2a by exact R1.
    rewrite filter_nopad_b2a by exact R2.
    rewrite filter_nopad_pad. cbn [filter].
    rewrite a2b_loop_sextet0 by (apply shiftr_2; exact Hx).
    rewrite a2b_loop_sextet1 by exact R1.
    rewrite a2b_loop_sextet2 by exact R2.
    reflexivity.
  - inversion Hb as [|? ? Hx Hb1]; inversion Hb1 as [|? ? Hy Hb2];
      inversion Hb2 as [|? ? Hz Hr]; subst.
    cbn [b2a_base64]. rewrite filter_app.
    pose proof (sextet1_range (Z.land x 3) (Z.shiftr y 4) (land_3 x)
                  (shiftr_4 y Hy)) as R1.
    pose proof (sextet2_range (Z.land y 15) (Z.shiftr z 6) (land_15 y)
                  (shiftr_6 z Hz)) as R2.
    rewrite (filter_nopad_b2a _ _ (shiftr_2 x Hx)), (filter_nopad_b2a _ _ R1),
      (filter_nopad_b2a _ _ R2), (filter_nopad_b2a _ _ (land_63 z)).
    cbn [filter].
    rewrite a2b_loop_group by assumption.
    apply IH; [simpl in Hlen; lia | exact Hr |].
    cbn [length] in Hm.
    replace (S (S (S (length rest)))) with (length rest + 1 * 3)%nat in Hm by lia.
    rewrite Nat.Div0.mod_add in Hm. exact Hm.
Qed.

(** X12: the base64 text of n bytes with its "=" padding removed does not
    decode when n is not a multiple of 3: [b64decode] raises "Incorrect
    padding" (unpadded base64 is rejected). *)
Theorem b64decode_unpadded_fails (bs : bytes) :
  Forall is_byte bs -> (length bs mod 3 <> 0)%nat ->
  b64decode (filter (fun c => negb (c =? BASE64_PAD)) (b64encode bs))
  = Err (ValueError "Incorrect padding").
Proof.
  intros Hb Hm. unfold b64decode, a2b_base64, b64encode.
  apply (a2b_loop_b2a_unpadded (S (length bs))); [lia | exact Hb | exact Hm].
Qed.

Lemma b64decode_unpadded_fails_witness :
  b64decode (filter (fun c => negb (c =? BASE64_PAD)) (b64encode [0; 255]))
  = Err (ValueError "Incorrect padding").
Proof.
  apply b64decode_unpadded_fails;
    [repeat constructor; unfold is_byte; lia | vm_compute; discriminate].
Defined.
